(** * LipSync gateway (main.py): a shallow embedding and its properties

    main.py is a FastAPI module: module-level start-up code followed by six
    request handlers.  Every handler is straight-line code around one to three
    calls to two outside collaborators, the Cloudinary uploader and the
    generation client, wrapped in [try ... except Exception].

    The embedding keeps that shape.  A handler is a computation in a small
    monad that reads the collaborators, records every call made to them in
    the order of the calls, and ends by returning a value or raising. *)

From Stdlib Require Import ZArith String List.
From stdpp Require Import base option list strings gmap pretty.

Open Scope string_scope.
Open Scope Z_scope.
Open Scope list_scope.

(** ** Python exceptions *)

(** Instances of the class [Exception].  [HTTPException] is FastAPI's; every
    other instance is kept as its class name and the text [str(e)] yields. *)
Inductive Exception : Type :=
| HTTPException (status_code : Z) (detail : string)
| PyException (class_name : string) (message : string).

(** What a [raise] can carry: an [Exception], or one of the interpreter's
    signals that derive from [BaseException] only ([KeyboardInterrupt],
    [SystemExit], [asyncio.CancelledError]). *)
Inductive Raised : Type :=
| Exc (e : Exception)
| BaseExc (class_name : string).

(** [str(e)].  Starlette gives [HTTPException] the rendering
    [f"{self.status_code}: {self.detail}"]; FastAPI inherits it. *)
Definition str (e : Exception) : string :=
  match e with
  | HTTPException status_code detail =>
      (pretty status_code ++ ": " ++ detail)%string
  | PyException _ message => message
  end.

Inductive Outcome (A : Type) : Type :=
| Returns (a : A)
| Raises (r : Raised).
Arguments Returns {A} a.
Arguments Raises {A} r.

(** ** Data carried by the requests *)

(** Modelled from the spec: the input descriptors [Video] and [Audio] of
    src.sync.common, which is not part of the sources at hand; a descriptor
    is built from a URL and the two kinds are distinct. *)
Inductive Input : Type :=
| Video (url : string)
| Audio (url : string).

(** [GenerationId] is an alias of [str]. *)
Definition GenerationId : Type := string.

(** Starlette's [UploadFile]; [file] stands for the spooled byte stream. *)
Record UploadFile : Type := {
  filename : string;
  file : string
}.

(** class CreateGenerationRequest(BaseModel) *)
Record CreateGenerationRequest : Type := {
  video_url : string;
  audio_url : string;
  model : string
}.

(** The value a declaration gives a field that the request leaves out:
    [model: str = "lipsync-2"] and [model: str = Form("lipsync-2", ...)]. *)
Definition field_default (declared : string) (sent : option string) : string :=
  match sent with
  | Some v => v
  | None => declared
  end.

(** Validation of a JSON body against [CreateGenerationRequest]. *)
Definition parse_CreateGenerationRequest
    (video_url audio_url : string) (model : option string) : CreateGenerationRequest :=
  {| video_url := video_url;
     audio_url := audio_url;
     model := field_default "lipsync-2" model |}.

(** [Form("lipsync-2", ...)] of the two multipart handlers. *)
Definition Form_model (sent : option string) : string :=
  field_default "lipsync-2" sent.

(** Python truth of a value that is [None] or a string: [Some s] when the
    value is a non-empty string, so that [not x] is [truthy x = None]. *)
Definition truthy (x : option string) : option string :=
  match x with
  | Some s => if String.eqb s "" then None else Some s
  | None => None
  end.

(** ** Collaborators and the trace of calls *)

Inductive Call : Type :=
| UploaderUpload (file : string) (resource_type folder : string)
| GenerationsCreate (input : list Input) (model : string)
| GenerationsGet (id : GenerationId)
| GenerationsList
| GenerationsEstimateCost (input : list Input) (model : string).

(** One entry per call, in call order; [ev_raised] is what the call raised,
    if it did. *)
Record Event : Type := {
  ev_call : Call;
  ev_raised : option Raised
}.

Definition Trace : Type := list Event.

Definition is_upload (ev : Event) : bool :=
  match ev_call ev with
  | UploaderUpload _ _ _ => true
  | _ => false
  end.

Definition is_generation_client (ev : Event) : bool :=
  match ev_call ev with
  | UploaderUpload _ _ _ => false
  | _ => true
  end.

Definition raised_of {A : Type} (o : Outcome A) : option Raised :=
  match o with
  | Returns _ => None
  | Raises r => Some r
  end.

Section Gateway.
(** The records of the remote service are opaque to the gateway. *)
Context {Generation CostEstimate : Type}.

(** The two collaborators as a request sees them.  They are deterministic
    in the calls of the request so far, which lets a double answer a second
    call differently from the first. *)
Record Collaborators : Type := {
  uploader_upload :
    Trace → string → string → string → Outcome (gmap string string);
  generations_create : Trace → list Input → string → Outcome Generation;
  generations_get : Trace → GenerationId → Outcome Generation;
  generations_list : Trace → Outcome (list Generation);
  generations_estimate_cost : Trace → list Input → string → Outcome CostEstimate
}.

(** ** The handler monad *)

Definition Handler (A : Type) : Type :=
  Collaborators → Trace → Outcome A * Trace.

Definition ret {A : Type} (a : A) : Handler A :=
  λ _ t, (Returns a, t).

Definition raise {A : Type} (r : Raised) : Handler A :=
  λ _ t, (Raises r, t).

Definition bind {A B : Type} (m : Handler A) (k : A → Handler B) : Handler B :=
  λ c t,
    match m c t with
    | (Returns a, t') => k a c t'
    | (Raises r, t') => (Raises r, t')
    end.

(** [try: body except Exception as e: handler(e)]: a [BaseException] that
    is not an [Exception] passes through. *)
Definition try_except_Exception {A : Type}
    (body : Handler A) (handler : Exception → Handler A) : Handler A :=
  λ c t,
    match body c t with
    | (Raises (Exc e), t') => handler e c t'
    | r => r
    end.

(** A call to a collaborator: ask it, log the call, pass on the outcome. *)
Definition perform {A : Type}
    (call : Call) (answer : Collaborators → Trace → Outcome A) : Handler A :=
  λ c t,
    let o := answer c t in
    (o, t ++ [{| ev_call := call; ev_raised := raised_of o |}]).

Definition cloudinary_uploader_upload
    (file resource_type folder : string) : Handler (gmap string string) :=
  perform (UploaderUpload file resource_type folder)
          (λ c t, uploader_upload c t file resource_type folder).

Definition client_generations_create
    (input : list Input) (model : string) : Handler Generation :=
  perform (GenerationsCreate input model)
          (λ c t, generations_create c t input model).

Definition client_generations_get (id : GenerationId) : Handler Generation :=
  perform (GenerationsGet id) (λ c t, generations_get c t id).

Definition client_generations_list : Handler (list Generation) :=
  perform GenerationsList (λ c t, generations_list c t).

Definition client_generations_estimate_cost
    (input : list Input) (model : string) : Handler CostEstimate :=
  perform (GenerationsEstimateCost input model)
          (λ c t, generations_estimate_cost c t input model).

(** A request starts with an empty trace. *)
Definition run {A : Type} (m : Handler A) (c : Collaborators) : Outcome A * Trace :=
  m c [].

Definition response {A : Type} (m : Handler A) (c : Collaborators) : Outcome A :=
  fst (run m c).

Definition calls {A : Type} (m : Handler A) (c : Collaborators) : Trace :=
  snd (run m c).
End Gateway.

Arguments Collaborators : clear implicits.
Arguments Handler : clear implicits.

Notation "x <~ m ; k" := (bind m (λ x, k))
  (at level 20, m at level 100, k at level 200, only parsing).

(** ** The handlers *)

Section Handlers.
Context {Generation CostEstimate : Type}.
#[local] Abbreviation H := (Handler Generation CostEstimate).

(** @app.post("/generations") *)
Definition create_generation (request : CreateGenerationRequest) : H Generation :=
  try_except_Exception
    (let inputs := [Video (video_url request); Audio (audio_url request)] in
     generation <~ client_generations_create inputs (model request);
     ret generation)
    (λ e, raise (Exc (HTTPException 500 (str e)))).

(** @app.get("/generations/{id}") *)
Definition get_generation (id : GenerationId) : H Generation :=
  try_except_Exception
    (generation <~ client_generations_get id;
     ret generation)
    (λ e, raise (Exc (HTTPException 404 (str e)))).

(** @app.get("/generations") *)
Definition list_generations : H (list Generation) :=
  try_except_Exception
    (generations <~ client_generations_list;
     ret generations)
    (λ e, raise (Exc (HTTPException 500 (str e)))).

(** @app.post("/generations/estimate-cost") *)
Definition estimate_cost
    (video_file audio_file : UploadFile) (model : string) : H CostEstimate :=
  try_except_Exception
    (video_upload_result <~
       cloudinary_uploader_upload (file video_file) "video" "lipsync_uploads";
     let video_url := video_upload_result !! "secure_url" in
     audio_upload_result <~
       cloudinary_uploader_upload (file audio_file) "video" "lipsync_uploads";
     let audio_url := audio_upload_result !! "secure_url" in
     match truthy video_url, truthy audio_url with
     | Some video_url, Some audio_url =>
         let inputs := [Video video_url; Audio audio_url] in
         cost <~ client_generations_estimate_cost inputs model;
         ret cost
     | _, _ =>
         raise (Exc (HTTPException 500
           "File upload to Cloudinary failed for cost estimation."))
     end)
    (λ e, raise (Exc (HTTPException 500 (str e)))).

(** @app.post("/upload-and-generate") *)
Definition upload_and_generate
    (video_file audio_file : UploadFile) (model : string) : H Generation :=
  try_except_Exception
    (video_upload_result <~
       cloudinary_uploader_upload (file video_file) "video" "lipsync_uploads";
     let video_url := video_upload_result !! "secure_url" in
     audio_upload_result <~
       cloudinary_uploader_upload (file audio_file) "video" "lipsync_uploads";
     let audio_url := audio_upload_result !! "secure_url" in
     match truthy video_url, truthy audio_url with
     | Some video_url, Some audio_url =>
         let inputs := [Video video_url; Audio audio_url] in
         generation <~ client_generations_create inputs model;
         ret generation
     | _, _ =>
         raise (Exc (HTTPException 500 "File upload to Cloudinary failed."))
     end)
    (λ e, raise (Exc (HTTPException 500 (str e)))).

(** @app.get("/") *)
Definition read_root : H (gmap string string) :=
  ret {[ "message" := "Welcome to the LipSync API. Visit /docs for documentation." ]}.
End Handlers.

(** ** Routes: what the framework does before a handler runs *)

Section Routes.
Context {Generation CostEstimate : Type}.
#[local] Abbreviation H := (Handler Generation CostEstimate).

(** POST /generations with a JSON body; [model] is [None] when the body
    has no such key. *)
Definition post_generations
    (video_url audio_url : string) (model : option string) : H Generation :=
  create_generation (parse_CreateGenerationRequest video_url audio_url model).

(** POST /generations/estimate-cost with a multipart form. *)
Definition post_generations_estimate_cost
    (video_file audio_file : UploadFile) (model : option string) : H CostEstimate :=
  estimate_cost video_file audio_file (Form_model model).

(** POST /upload-and-generate with a multipart form. *)
Definition post_upload_and_generate
    (video_file audio_file : UploadFile) (model : option string) : H Generation :=
  upload_and_generate video_file audio_file (Form_model model).
End Routes.

(** The model argument of a call to the generation client, if it has one. *)
Definition call_model (call : Call) : option string :=
  match call with
  | GenerationsCreate _ model => Some model
  | GenerationsEstimateCost _ model => Some model
  | _ => None
  end.

(** A run of [m] reports with [status]: whenever one of its collaborator
    calls raised an [Exception], the handler ends by raising
    [HTTPException(status_code=status, detail=str(e))] for that exception. *)
Definition reports_exceptions_as {Generation CostEstimate A : Type}
    (status : Z) (m : Handler Generation CostEstimate A)
    (c : Collaborators Generation CostEstimate) : Prop :=
  ∀ (ev : Event) (e : Exception),
    In ev (calls m c) →
    ev_raised ev = Some (Exc e) →
    response m c = Raises (Exc (HTTPException status (str e))).

(** The log entry of an upload of [f] as both multipart handlers issue it. *)
Definition upload_event (f : UploadFile) (raised : option Raised) : Event :=
  {| ev_call := UploaderUpload (file f) "video" "lipsync_uploads";
     ev_raised := raised |}.

(** The order of the uploads in a trace: the first call is the upload of
    the video file; the upload of the audio file, when the trace has one, is
    the second call; nothing after it is an upload. *)
Definition video_upload_first (video_file audio_file : UploadFile) (t : Trace) : Prop :=
  ∃ (rv : option Raised) (rest : Trace),
    t = upload_event video_file rv :: rest
    ∧ (rest = []
       ∨ ∃ (ra : option Raised) (rest' : Trace),
           rest = upload_event audio_file ra :: rest'
           ∧ Forall (λ ev, is_upload ev = false) rest').

(** No call of the trace went to the generation client. *)
Definition generation_client_untouched (t : Trace) : Prop :=
  Forall (λ ev, is_generation_client ev = false) t.

(** ** Start-up: the module-level code of main.py *)

Module Startup.
(** What [cloudinary.config] is given. *)
Record CloudinaryConfig : Type := {
  cloud_name : option string;
  api_key : option string;
  api_secret : option string;
  secure : bool
}.

Record CORS : Type := {
  allow_origins : list string;
  allow_credentials : bool;
  allow_methods : list string;
  allow_headers : list string
}.

(** The module once its top-level code has run to the end. *)
Record Service : Type := {
  cloudinary_config : CloudinaryConfig;
  title : string;
  version : string;
  cors : CORS;
  client_api_key : string
}.

Definition origins : list string :=
  [ "http://localhost:8080";
    "http://127.0.0.1:8080";
    "http://localhost:5173";
    "http://localhost:3000" ].

(** [load_dotenv()]: the entries of the .env file, when one is found, are
    added to [os.environ]; a variable the process already has is kept
    (override is off by default). *)
Definition load_dotenv
    (dotenv_file : option (gmap string string))
    (environ : gmap string string) : gmap string string :=
  match dotenv_file with
  | Some entries => environ ∪ entries
  | None => environ
  end.

(** Lines 12 to 68, with [os.environ] threaded through. *)
Definition startup
    (dotenv_file : option (gmap string string))
    (environ : gmap string string) : Outcome Service :=
  let environ := load_dotenv dotenv_file environ in
  let config :=
    {| cloud_name := environ !! "CLOUDINARY_CLOUD_NAME";
       api_key := environ !! "CLOUDINARY_API_KEY";
       api_secret := environ !! "CLOUDINARY_API_SECRET";
       secure := true |} in
  let API_KEY := environ !! "API_KEY" in
  match truthy API_KEY with
  | None =>
      Raises (Exc (PyException "RuntimeError"
                               "API_KEY environment variable not set."))
  | Some API_KEY =>
      Returns
        {| cloudinary_config := config;
           title := "LipSync API";
           version := "1.0.0";
           cors := {| allow_origins := origins;
                      allow_credentials := true;
                      allow_methods := ["*"];
                      allow_headers := ["*"] |};
           client_api_key := API_KEY |}
  end.
End Startup.

(** ** Doubles for the collaborators *)

Module Doubles.
(** Every call succeeds; an upload answers with a secure URL made from
    the bytes it was given. *)
Definition healthy : Collaborators string Z :=
  {| uploader_upload := λ _ f _ _,
       Returns {[ "secure_url" := ("https://res.example/" ++ f)%string;
                  "resource_type" := "video" ]};
     generations_create := λ _ _ model, Returns ("job:" ++ model)%string;
     generations_get := λ _ id, Returns ("job:" ++ id)%string;
     generations_list := λ _, Returns ["job:a"; "job:b"];
     generations_estimate_cost := λ _ _ _, Returns 42 |}.

(** The generation client refuses every call with the same message. *)
Definition quota_exceeded : Collaborators string Z :=
  {| uploader_upload := uploader_upload healthy;
     generations_create := λ _ _ _,
       Raises (Exc (PyException "ApiError" "quota exceeded"));
     generations_get := λ _ _,
       Raises (Exc (PyException "ApiError" "quota exceeded"));
     generations_list := λ _,
       Raises (Exc (PyException "ApiError" "quota exceeded"));
     generations_estimate_cost := λ _ _ _,
       Raises (Exc (PyException "ApiError" "quota exceeded")) |}.

(** The uploader answers without a [secure_url] key. *)
Definition upload_without_url : Collaborators string Z :=
  {| uploader_upload := λ _ _ _ _, Returns {[ "resource_type" := "video" ]};
     generations_create := generations_create healthy;
     generations_get := generations_get healthy;
     generations_list := generations_list healthy;
     generations_estimate_cost := generations_estimate_cost healthy |}.

(** The first upload of a request succeeds, the second raises. *)
Definition second_upload_fails : Collaborators string Z :=
  {| uploader_upload := λ t f rt folder,
       match t with
       | [] => uploader_upload healthy t f rt folder
       | _ => Raises (Exc (PyException "Error" "upload refused"))
       end;
     generations_create := generations_create healthy;
     generations_get := generations_get healthy;
     generations_list := generations_list healthy;
     generations_estimate_cost := generations_estimate_cost healthy |}.

(** The first upload of a request raises. *)
Definition first_upload_fails : Collaborators string Z :=
  {| uploader_upload := λ _ _ _ _,
       Raises (Exc (PyException "Error" "Invalid cloud_name"));
     generations_create := generations_create healthy;
     generations_get := generations_get healthy;
     generations_list := generations_list healthy;
     generations_estimate_cost := generations_estimate_cost healthy |}.

Definition clip : UploadFile := {| filename := "clip.mp4"; file := "VIDEO" |}.
Definition voice : UploadFile := {| filename := "voice.mp3"; file := "AUDIO" |}.
End Doubles.

(** ** Vocabulary for the properties beyond the claims *)

(** The collaborators as a request finds them once the calls of [prefix]
    have been made. *)
Definition after {Generation CostEstimate : Type}
    (prefix : Trace) (c : Collaborators Generation CostEstimate)
    : Collaborators Generation CostEstimate :=
  {| uploader_upload := λ t, uploader_upload c (prefix ++ t);
     generations_create := λ t, generations_create c (prefix ++ t);
     generations_get := λ t, generations_get c (prefix ++ t);
     generations_list := λ t, generations_list c (prefix ++ t);
     generations_estimate_cost := λ t, generations_estimate_cost c (prefix ++ t) |}.

(** Both uploads of a multipart request return, the first a result whose
    [secure_url] is the non-empty string [v], the second one whose
    [secure_url] is the non-empty string [a]. *)
Definition uploads_yield {Generation CostEstimate : Type}
    (c : Collaborators Generation CostEstimate)
    (video_file audio_file : UploadFile) (v a : string) : Prop :=
  ∃ rv ra : gmap string string,
    uploader_upload c [] (file video_file) "video" "lipsync_uploads" = Returns rv
    ∧ uploader_upload c [upload_event video_file None]
        (file audio_file) "video" "lipsync_uploads" = Returns ra
    ∧ rv !! "secure_url" = Some v ∧ v ≠ ""
    ∧ ra !! "secure_url" = Some a ∧ a ≠ "".

(** The two uploads of a multipart request that got through both. *)
Definition both_uploads (video_file audio_file : UploadFile) : Trace :=
  [upload_event video_file None; upload_event audio_file None].

(** What a handler makes of the outcome of its last collaborator call. *)
Definition reported {A : Type} (status : Z) (o : Outcome A) : Outcome A :=
  match o with
  | Returns a => Returns a
  | Raises (Exc e) => Raises (Exc (HTTPException status (str e)))
  | Raises (BaseExc signal) => Raises (BaseExc signal)
  end.

(** How a request may end at a handler that reports with [status]: with a
    value, and then no call of the request raised; with
    [HTTPException(status_code=status)]; or with a signal outside
    [Exception] that one of its calls raised.  No other [Exception] leaves
    the handler. *)
Definition ends_within {A : Type} (status : Z) (o : Outcome A) (t : Trace) : Prop :=
  match o with
  | Returns _ => Forall (λ ev, ev_raised ev = None) t
  | Raises (Exc (HTTPException status_code _)) => status_code = status
  | Raises (Exc (PyException _ _)) => False
  | Raises (BaseExc signal) =>
      ∃ ev, In ev t ∧ ev_raised ev = Some (BaseExc signal)
  end.

(** A trace of at most three calls in which a call that raised, or a call to
    the generation client, is the last one. *)
Definition frugal (t : Trace) : Prop :=
  (length t ≤ 3)%nat
  ∧ (∀ (i : nat) (ev : Event),
       t !! i = Some ev → ev_raised ev ≠ None → S i = length t)
  ∧ (∀ (i : nat) (ev : Event),
       t !! i = Some ev → is_generation_client ev = true → S i = length t).

(** A run of [m] lets signals pass: whenever one of its collaborator calls
    raised a [BaseException] outside [Exception], the handler ends with that
    very signal. *)
Definition passes_signals {Generation CostEstimate A : Type}
    (m : Handler Generation CostEstimate A)
    (c : Collaborators Generation CostEstimate) : Prop :=
  ∀ (ev : Event) (signal : string),
    In ev (calls m c) →
    ev_raised ev = Some (BaseExc signal) →
    response m c = Raises (BaseExc signal).

(** The value [os.getenv(name)] has after [load_dotenv()], told from the
    process environment and the .env file apart. *)
Definition effective
    (dotenv_file : option (gmap string string))
    (environ : gmap string string) (name : string) : option string :=
  match environ !! name with
  | Some v => Some v
  | None => dotenv_file ≫= (λ entries, entries !! name)
  end.

Module EdgeDoubles.
(** The uploader answers with an empty [secure_url]. *)
Definition empty_url : Collaborators string Z :=
  {| uploader_upload := λ _ _ _ _, Returns {[ "secure_url" := "" ]};
     generations_create := generations_create Doubles.healthy;
     generations_get := generations_get Doubles.healthy;
     generations_list := generations_list Doubles.healthy;
     generations_estimate_cost := generations_estimate_cost Doubles.healthy |}.

(** Every call to the generation client is cut short by a cancellation. *)
Definition cancelled : Collaborators string Z :=
  {| uploader_upload := uploader_upload Doubles.healthy;
     generations_create := λ _ _ _, Raises (BaseExc "CancelledError");
     generations_get := λ _ _, Raises (BaseExc "CancelledError");
     generations_list := λ _, Raises (BaseExc "CancelledError");
     generations_estimate_cost := λ _ _ _, Raises (BaseExc "CancelledError") |}.

(** The service has no generation yet. *)
Definition no_generations : Collaborators string Z :=
  {| uploader_upload := uploader_upload Doubles.healthy;
     generations_create := generations_create Doubles.healthy;
     generations_get := λ _ id,
       Raises (Exc (PyException "NotFoundError" ("no generation " ++ id)%string));
     generations_list := λ _, Returns [];
     generations_estimate_cost := generations_estimate_cost Doubles.healthy |}.
End EdgeDoubles.

(** ** Properties of the handlers *)

Ltac unfold_handler :=
  unfold response, calls, run,
    post_generations, post_generations_estimate_cost, post_upload_and_generate,
    create_generation, get_generation, list_generations,
    estimate_cost, upload_and_generate, read_root,
    try_except_Exception, bind,
    cloudinary_uploader_upload, client_generations_create,
    client_generations_get, client_generations_list,
    client_generations_estimate_cost, perform, ret, raise;
  simpl.

(** Case analysis on the outcome of the next collaborator call. *)
Ltac next_call :=
  match goal with
  | H : ?o = _ |- context [match ?o with Returns _ => _ | Raises _ => _ end] =>
      rewrite H; simpl
  | |- context [match ?o with Returns _ => _ | Raises _ => _ end] =>
      let E := fresh "E" in destruct o as [?|[?|?]] eqn:E; simpl
  end.

Ltac next_truthy :=
  match goal with
  | H : truthy ?x = _ |- context [match truthy ?x with Some _ => _ | None => _ end] =>
      rewrite H; simpl
  | |- context [match truthy ?x with Some _ => _ | None => _ end] =>
      let E := fresh "E" in destruct (truthy x) eqn:E; simpl
  end.

Ltac walk := unfold_handler; repeat (first [next_call | next_truthy]).

Ltac settle_report :=
  let ev := fresh "ev" in
  let e := fresh "e" in
  let Hin := fresh "Hin" in
  let Hraised := fresh "Hraised" in
  intros ev e Hin Hraised; simpl in Hin;
  repeat (destruct Hin as [<-|Hin]; [simpl in Hraised; try discriminate|]);
  try contradiction;
  try (injection Hraised as ->); try reflexivity.

Ltac settle_model :=
  let ev := fresh "ev" in
  let m := fresh "m" in
  let Hin := fresh "Hin" in
  let Hmodel := fresh "Hmodel" in
  intros ev m Hin Hmodel; simpl in Hin;
  repeat (destruct Hin as [<-|Hin]; [simpl in Hmodel; try discriminate|]);
  try contradiction;
  try (injection Hmodel as <-); try reflexivity.

Lemma truthy_None_absent (x : option string) : x = None → truthy x = None.
Proof. now intros ->. Qed.

(** The doubles at work: a request that goes through, and one whose first
    upload raises, after which nothing else is called. *)
Example healthy_upload_and_generate :
  run (post_upload_and_generate Doubles.clip Doubles.voice None) Doubles.healthy
    = (Returns "job:lipsync-2",
       [ upload_event Doubles.clip None;
         upload_event Doubles.voice None;
         {| ev_call := GenerationsCreate
                         [Video "https://res.example/VIDEO";
                          Audio "https://res.example/AUDIO"] "lipsync-2";
            ev_raised := None |} ]).
Proof. vm_compute. reflexivity. Qed.

Example first_upload_failure_ends_request :
  run (estimate_cost Doubles.clip Doubles.voice "lipsync-2")
      Doubles.first_upload_fails
    = (Raises (Exc (HTTPException 500 "Invalid cloud_name")),
       [ upload_event Doubles.clip
           (Some (Exc (PyException "Error" "Invalid cloud_name"))) ]).
Proof. vm_compute. reflexivity. Qed.

(** [except Exception] does not match a [BaseException] that is not an
    [Exception]: such a signal leaves the handler as it came. *)
Lemma base_exception_passes_through {Generation CostEstimate : Type}
    (c : Collaborators Generation CostEstimate)
    (request : CreateGenerationRequest) (signal : string) :
  generations_create c []
      [Video (video_url request); Audio (audio_url request)] (model request)
    = Raises (BaseExc signal) →
  response (create_generation request) c = Raises (BaseExc signal).
Proof. intros Hcreate. walk. reflexivity. Qed.

(** C8: GET / returns the same welcome payload, a record with one message
    string, whatever the collaborators are, and calls none of them. *)
Theorem read_root_static {Generation CostEstimate : Type}
    (c : Collaborators Generation CostEstimate) :
  response read_root c
    = Returns {[ "message" :=
                   "Welcome to the LipSync API. Visit /docs for documentation." ]}
  ∧ calls read_root c = [].
Proof. split; reflexivity. Qed.

(** C1: for every body with a video_url and an audio_url, POST /generations
    makes exactly one collaborator call, the create operation, with the
    two-element list [video descriptor of video_url; audio descriptor of
    audio_url] and the model of the request; when create returns a value the
    response is that value. *)
Theorem create_generation_forwards {Generation CostEstimate : Type}
    (c : Collaborators Generation CostEstimate)
    (video_url audio_url : string) (model_field : option string) :
  let request := parse_CreateGenerationRequest video_url audio_url model_field in
  let inputs := [Video video_url; Audio audio_url] in
  let created := generations_create c [] inputs (model request) in
  calls (post_generations video_url audio_url model_field) c
    = [ {| ev_call := GenerationsCreate inputs (model request);
           ev_raised := raised_of created |} ]
  ∧ ∀ generation : Generation,
      created = Returns generation →
      response (post_generations video_url audio_url model_field) c
        = Returns generation.
Proof.
  intros request inputs created. subst request inputs created. split.
  - walk; reflexivity.
  - simpl. intros generation Hcreated. walk. reflexivity.
Qed.

Lemma create_generation_forwards_witness :
  calls (post_generations "https://x/v.mp4" "https://x/a.mp3" None) Doubles.healthy
    = [ {| ev_call := GenerationsCreate
                        [Video "https://x/v.mp4"; Audio "https://x/a.mp3"]
                        "lipsync-2";
           ev_raised := None |} ]
  ∧ response (post_generations "https://x/v.mp4" "https://x/a.mp3" None)
             Doubles.healthy
    = Returns "job:lipsync-2".
Proof.
  split.
  - exact (proj1 (create_generation_forwards
                    Doubles.healthy "https://x/v.mp4" "https://x/a.mp3" None)).
  - apply (proj2 (create_generation_forwards
                    Doubles.healthy "https://x/v.mp4" "https://x/a.mp3" None)).
    reflexivity.
Defined.

(** C2: in POST /generations, GET /generations, POST
    /generations/estimate-cost and POST /upload-and-generate, every exception
    raised by a collaborator call ends the request with
    HTTPException(status_code=500) whose detail is exactly str(e); when create
    raises an error whose message is "quota exceeded", the detail is
    "quota exceeded". *)
Theorem collaborator_exception_is_500 {Generation CostEstimate : Type}
    (c : Collaborators Generation CostEstimate) :
  (∀ request, reports_exceptions_as 500 (create_generation request) c)
  ∧ reports_exceptions_as 500 list_generations c
  ∧ (∀ video_file audio_file model,
       reports_exceptions_as 500 (estimate_cost video_file audio_file model) c)
  ∧ (∀ video_file audio_file model,
       reports_exceptions_as 500 (upload_and_generate video_file audio_file model) c)
  ∧ (∀ request class_name,
       generations_create c []
           [Video (video_url request); Audio (audio_url request)] (model request)
         = Raises (Exc (PyException class_name "quota exceeded")) →
       response (create_generation request) c
         = Raises (Exc (HTTPException 500 "quota exceeded"))).
Proof.
  unfold reports_exceptions_as. repeat split.
  - intros request. walk; settle_report.
  - walk; settle_report.
  - intros video_file audio_file model. walk; settle_report.
  - intros video_file audio_file model. walk; settle_report.
  - intros request class_name Hcreate. walk. reflexivity.
Qed.

Lemma collaborator_exception_is_500_witness :
  response (create_generation
              {| video_url := "https://x/v.mp4";
                 audio_url := "https://x/a.mp3";
                 model := "lipsync-2" |}) Doubles.quota_exceeded
    = Raises (Exc (HTTPException 500 "quota exceeded"))
  ∧ response (upload_and_generate Doubles.clip Doubles.voice "lipsync-2")
             Doubles.second_upload_fails
    = Raises (Exc (HTTPException 500 "upload refused")).
Proof.
  split.
  - apply (proj2 (proj2 (proj2 (proj2
             (collaborator_exception_is_500 Doubles.quota_exceeded))))
             _ "ApiError").
    reflexivity.
  - apply (proj1 (proj2 (proj2 (proj2
             (collaborator_exception_is_500 Doubles.second_upload_fails))))
             Doubles.clip Doubles.voice "lipsync-2"
             (upload_event Doubles.voice
                (Some (Exc (PyException "Error" "upload refused"))))
             (PyException "Error" "upload refused")).
    + right. left. reflexivity.
    + reflexivity.
Defined.

(** C3: GET /generations/{id} makes exactly one collaborator call, the get
    operation with the path segment as it came, and every exception that
    call raises, whatever it is, ends the request with
    HTTPException(status_code=404) whose detail is str(e). *)
Theorem get_generation_lookup {Generation CostEstimate : Type}
    (c : Collaborators Generation CostEstimate) (id : GenerationId) :
  calls (get_generation id) c
    = [ {| ev_call := GenerationsGet id;
           ev_raised := raised_of (generations_get c [] id) |} ]
  ∧ ∀ e : Exception,
      generations_get c [] id = Raises (Exc e) →
      response (get_generation id) c = Raises (Exc (HTTPException 404 (str e))).
Proof.
  split.
  - walk; reflexivity.
  - intros e Hget. walk. reflexivity.
Qed.

Lemma get_generation_lookup_witness :
  response (get_generation "gen 42/%2F") Doubles.quota_exceeded
    = Raises (Exc (HTTPException 404 "quota exceeded")).
Proof.
  apply (proj2 (get_generation_lookup Doubles.quota_exceeded "gen 42/%2F")
               (PyException "ApiError" "quota exceeded")).
  reflexivity.
Defined.

(** What both multipart handlers do when the two uploads return and one of
    the two results has no usable [secure_url]: the handler's own
    HTTPException is raised inside the [try], caught by the [except] of the
    same handler, and raised again with [str] of it as the detail. *)
Lemma estimate_cost_without_url {Generation CostEstimate : Type}
    (c : Collaborators Generation CostEstimate)
    (video_file audio_file : UploadFile) (model : string)
    (rv ra : gmap string string) :
  uploader_upload c [] (file video_file) "video" "lipsync_uploads" = Returns rv →
  uploader_upload c [upload_event video_file None]
                  (file audio_file) "video" "lipsync_uploads" = Returns ra →
  truthy (rv !! "secure_url") = None ∨ truthy (ra !! "secure_url") = None →
  run (estimate_cost video_file audio_file model) c
    = (Raises (Exc (HTTPException 500
         (str (HTTPException 500
            "File upload to Cloudinary failed for cost estimation.")))),
       [upload_event video_file None; upload_event audio_file None]).
Proof.
  unfold upload_event. intros Hv Ha Hno. unfold_handler.
  rewrite Hv. simpl. rewrite Ha. simpl.
  destruct Hno as [Hno|Hno]; rewrite Hno.
  - reflexivity.
  - destruct (truthy (rv !! "secure_url")); reflexivity.
Qed.

Lemma upload_and_generate_without_url {Generation CostEstimate : Type}
    (c : Collaborators Generation CostEstimate)
    (video_file audio_file : UploadFile) (model : string)
    (rv ra : gmap string string) :
  uploader_upload c [] (file video_file) "video" "lipsync_uploads" = Returns rv →
  uploader_upload c [upload_event video_file None]
                  (file audio_file) "video" "lipsync_uploads" = Returns ra →
  truthy (rv !! "secure_url") = None ∨ truthy (ra !! "secure_url") = None →
  run (upload_and_generate video_file audio_file model) c
    = (Raises (Exc (HTTPException 500
         (str (HTTPException 500 "File upload to Cloudinary failed.")))),
       [upload_event video_file None; upload_event audio_file None]).
Proof.
  unfold upload_event. intros Hv Ha Hno. unfold_handler.
  rewrite Hv. simpl. rewrite Ha. simpl.
  destruct Hno as [Hno|Hno]; rewrite Hno.
  - reflexivity.
  - destruct (truthy (rv !! "secure_url")); reflexivity.
Qed.

Lemma uploads_only_untouched (video_file audio_file : UploadFile)
    (rv ra : option Raised) :
  generation_client_untouched
    [upload_event video_file rv; upload_event audio_file ra].
Proof. repeat constructor. Qed.

(** C4: in POST /generations/estimate-cost and POST /upload-and-generate, if
    both uploads return and the result for the video file or the result for
    the audio file has no secure URL, the handler ends with
    HTTPException(status_code=500) and no call of the request goes to the
    generation client. *)
Theorem missing_secure_url_fails {Generation CostEstimate : Type}
    (c : Collaborators Generation CostEstimate)
    (video_file audio_file : UploadFile) (model : string)
    (rv ra : gmap string string) :
  uploader_upload c [] (file video_file) "video" "lipsync_uploads" = Returns rv →
  uploader_upload c [upload_event video_file None]
                  (file audio_file) "video" "lipsync_uploads" = Returns ra →
  rv !! "secure_url" = None ∨ ra !! "secure_url" = None →
  ((∃ detail, response (estimate_cost video_file audio_file model) c
                = Raises (Exc (HTTPException 500 detail)))
   ∧ generation_client_untouched
       (calls (estimate_cost video_file audio_file model) c))
  ∧ ((∃ detail, response (upload_and_generate video_file audio_file model) c
                  = Raises (Exc (HTTPException 500 detail)))
     ∧ generation_client_untouched
         (calls (upload_and_generate video_file audio_file model) c)).
Proof.
  intros Hv Ha Hno.
  assert (Hfalsy : truthy (rv !! "secure_url") = None
                   ∨ truthy (ra !! "secure_url") = None).
  { destruct Hno as [Hno|Hno]; [left|right]; now apply truthy_None_absent. }
  unfold response, calls.
  rewrite (estimate_cost_without_url c _ _ model rv ra Hv Ha Hfalsy).
  rewrite (upload_and_generate_without_url c _ _ model rv ra Hv Ha Hfalsy).
  simpl. repeat split; eauto using uploads_only_untouched.
Qed.

Lemma missing_secure_url_fails_witness :
  ((∃ detail,
      response (estimate_cost Doubles.clip Doubles.voice "lipsync-2")
               Doubles.upload_without_url
        = Raises (Exc (HTTPException 500 detail)))
   ∧ generation_client_untouched
       (calls (estimate_cost Doubles.clip Doubles.voice "lipsync-2")
              Doubles.upload_without_url))
  ∧ ((∃ detail,
        response (upload_and_generate Doubles.clip Doubles.voice "lipsync-2")
                 Doubles.upload_without_url
          = Raises (Exc (HTTPException 500 detail)))
     ∧ generation_client_untouched
         (calls (upload_and_generate Doubles.clip Doubles.voice "lipsync-2")
                Doubles.upload_without_url)).
Proof.
  apply (missing_secure_url_fails Doubles.upload_without_url
           Doubles.clip Doubles.voice "lipsync-2"
           {[ "resource_type" := "video" ]} {[ "resource_type" := "video" ]}).
  - reflexivity.
  - reflexivity.
  - left. vm_compute. reflexivity.
Defined.

(** C5: run on an uploader that returns results without a secure URL, the
    two multipart handlers end with status 500, but the detail is not the
    message the handler states for this case: it is that message behind the
    prefix "500: ", the rendering of the handler's own HTTPException, which
    the surrounding [except Exception] caught and wrapped again. *)
Theorem upload_failure_detail_is_rewrapped :
  response (estimate_cost Doubles.clip Doubles.voice "lipsync-2")
           Doubles.upload_without_url
    = Raises (Exc (HTTPException 500
        "500: File upload to Cloudinary failed for cost estimation."))
  ∧ response (upload_and_generate Doubles.clip Doubles.voice "lipsync-2")
             Doubles.upload_without_url
    = Raises (Exc (HTTPException 500 "500: File upload to Cloudinary failed.")).
Proof. split; vm_compute; reflexivity. Qed.

(** C6: when the model field is left out of the body of POST /generations or
    of the form of POST /generations/estimate-cost or POST
    /upload-and-generate, the handler runs with the model "lipsync-2", and
    every call of the request to the generation client that takes a model is
    given exactly "lipsync-2". *)
Theorem model_defaults_to_lipsync_2 {Generation CostEstimate : Type}
    (c : Collaborators Generation CostEstimate) :
  (∀ video_url audio_url,
     model (parse_CreateGenerationRequest video_url audio_url None) = "lipsync-2"
     ∧ ∀ ev m,
         In ev (calls (post_generations video_url audio_url None) c) →
         call_model (ev_call ev) = Some m → m = "lipsync-2")
  ∧ (∀ video_file audio_file,
       post_generations_estimate_cost video_file audio_file None
         = (estimate_cost video_file audio_file "lipsync-2"
              : Handler Generation CostEstimate CostEstimate)
       ∧ ∀ ev m,
           In ev (calls (post_generations_estimate_cost video_file audio_file None) c) →
           call_model (ev_call ev) = Some m → m = "lipsync-2")
  ∧ (∀ video_file audio_file,
       post_upload_and_generate video_file audio_file None
         = (upload_and_generate video_file audio_file "lipsync-2"
              : Handler Generation CostEstimate Generation)
       ∧ ∀ ev m,
           In ev (calls (post_upload_and_generate video_file audio_file None) c) →
           call_model (ev_call ev) = Some m → m = "lipsync-2").
Proof.
  repeat split.
  - walk; settle_model.
  - walk; settle_model.
  - walk; settle_model.
Qed.

Lemma model_defaults_to_lipsync_2_witness :
  In {| ev_call := GenerationsEstimateCost
                     [Video "https://res.example/VIDEO";
                      Audio "https://res.example/AUDIO"] "lipsync-2";
        ev_raised := None |}
     (calls (post_generations_estimate_cost Doubles.clip Doubles.voice None)
            Doubles.healthy)
  ∧ "lipsync-2" = "lipsync-2".
Proof.
  assert (Hin :
    In {| ev_call := GenerationsEstimateCost
                       [Video "https://res.example/VIDEO";
                        Audio "https://res.example/AUDIO"] "lipsync-2";
          ev_raised := None |}
       (calls (post_generations_estimate_cost Doubles.clip Doubles.voice None)
              Doubles.healthy)).
  { vm_compute. right. right. left. reflexivity. }
  split; [exact Hin|].
  exact (proj2 (proj1 (proj2 (model_defaults_to_lipsync_2 Doubles.healthy))
                  Doubles.clip Doubles.voice) _ "lipsync-2" Hin eq_refl).
Defined.

(** C7: in one request to POST /generations/estimate-cost or POST
    /upload-and-generate the first collaborator call is the upload of the
    video file; the upload of the audio file, if the request gets to it, is
    the call right after it, and no later call is an upload.  So the audio
    upload is never attempted first. *)
Theorem video_upload_before_audio_upload {Generation CostEstimate : Type}
    (c : Collaborators Generation CostEstimate)
    (video_file audio_file : UploadFile) (model : string) :
  video_upload_first video_file audio_file
    (calls (estimate_cost video_file audio_file model) c)
  ∧ video_upload_first video_file audio_file
      (calls (upload_and_generate video_file audio_file model) c).
Proof.
  unfold video_upload_first, upload_event.
  split; walk;
    (eexists; eexists; split; [reflexivity|]);
    first [ left; reflexivity
          | right; eexists; eexists; split; [reflexivity|];
            repeat constructor ].
Qed.

(** C10: in both multipart handlers, when the upload of the video file
    returns a result without a secure URL, the upload of the audio file is
    still the next call: the two URLs are looked at only after both uploads,
    and these two uploads are all the calls of the request. *)
Theorem audio_upload_after_video_without_url {Generation CostEstimate : Type}
    (c : Collaborators Generation CostEstimate)
    (video_file audio_file : UploadFile) (model : string)
    (rv : gmap string string) :
  uploader_upload c [] (file video_file) "video" "lipsync_uploads" = Returns rv →
  rv !! "secure_url" = None →
  let audio := uploader_upload c [upload_event video_file None]
                 (file audio_file) "video" "lipsync_uploads" in
  calls (estimate_cost video_file audio_file model) c
    = [upload_event video_file None; upload_event audio_file (raised_of audio)]
  ∧ calls (upload_and_generate video_file audio_file model) c
    = [upload_event video_file None; upload_event audio_file (raised_of audio)].
Proof.
  intros Hv Hno audio. subst audio. unfold upload_event in *.
  split; unfold_handler; rewrite Hv; simpl; rewrite Hno; simpl;
    next_call; reflexivity.
Qed.

Lemma audio_upload_after_video_without_url_witness :
  calls (estimate_cost Doubles.clip Doubles.voice "lipsync-2")
        Doubles.upload_without_url
    = [upload_event Doubles.clip None; upload_event Doubles.voice None]
  ∧ calls (upload_and_generate Doubles.clip Doubles.voice "lipsync-2")
          Doubles.upload_without_url
    = [upload_event Doubles.clip None; upload_event Doubles.voice None].
Proof.
  apply (audio_upload_after_video_without_url Doubles.upload_without_url
           Doubles.clip Doubles.voice "lipsync-2" {[ "resource_type" := "video" ]}).
  - reflexivity.
  - vm_compute. reflexivity.
Defined.

(** ** Start-up *)

(** [os.getenv] after [load_dotenv()]: the process environment answers
    first, the .env file only for a variable the process does not have. *)
Lemma load_dotenv_lookup
    (dotenv_file : option (gmap string string))
    (environ : gmap string string) (name : string) :
  Startup.load_dotenv dotenv_file environ !! name
    = match environ !! name with
      | Some v => Some v
      | None => dotenv_file ≫= (λ entries, entries !! name)
      end.
Proof.
  destruct dotenv_file as [entries|]; simpl.
  - rewrite lookup_union.
    destruct (environ !! name), (entries !! name); reflexivity.
  - destruct (environ !! name); reflexivity.
Qed.

Lemma truthy_Some (x : option string) (s : string) :
  x = Some s → s ≠ "" → truthy x = Some s.
Proof.
  intros -> Hne. simpl. destruct (String.eqb_spec s ""); [contradiction|reflexivity].
Qed.

Lemma truthy_falsy (x : option string) :
  x = None ∨ x = Some "" → truthy x = None.
Proof. intros [->| ->]; reflexivity. Qed.

(** The process environment has no API_KEY, the .env file has one: the
    module runs to its end. *)
Lemma startup_from_dotenv_proceeds :
  let environ : gmap string string := {[ "PATH" := "/usr/bin" ]} in
  let dotenv_file := Some ({[ "API_KEY" := "sk-test" ]} : gmap string string) in
  environ !! "API_KEY" = None
  ∧ ¬ (∃ r, Startup.startup dotenv_file environ = Raises r).
Proof.
  split.
  - vm_compute. reflexivity.
  - intros [r Hr]. vm_compute in Hr. discriminate Hr.
Qed.

(** C9 (as the code has it): let API_KEY be the value of the variable in the
    process environment or, only when the process environment does not
    define it, its value in the .env file.  If API_KEY is absent or empty,
    the module raises RuntimeError before the application and the client
    exist; if it is a non-empty string, the module runs to its end and the
    client holds that key. *)
Theorem startup_requires_API_KEY
    (dotenv_file : option (gmap string string))
    (environ : gmap string string) :
  let API_KEY :=
    match environ !! "API_KEY" with
    | Some v => Some v
    | None => dotenv_file ≫= (λ entries, entries !! "API_KEY")
    end in
  (API_KEY = None ∨ API_KEY = Some "" →
     Startup.startup dotenv_file environ
       = Raises (Exc (PyException "RuntimeError"
                                  "API_KEY environment variable not set.")))
  ∧ (∀ key, API_KEY = Some key → key ≠ "" →
       ∃ service, Startup.startup dotenv_file environ = Returns service
                  ∧ Startup.client_api_key service = key).
Proof.
  intros API_KEY. subst API_KEY.
  rewrite <- (load_dotenv_lookup dotenv_file environ "API_KEY").
  unfold Startup.startup. split.
  - intros Hfalsy. now rewrite (truthy_falsy _ Hfalsy).
  - intros key Hkey Hne. rewrite (truthy_Some _ key Hkey Hne).
    eexists. split; reflexivity.
Qed.

Lemma startup_requires_API_KEY_witness :
  Startup.startup None {[ "API_KEY" := "" ]}
    = Raises (Exc (PyException "RuntimeError"
                               "API_KEY environment variable not set."))
  ∧ ∃ service,
      Startup.startup (Some {[ "API_KEY" := "from-file" ]})
                      {[ "API_KEY" := "from-process" ]} = Returns service
      ∧ Startup.client_api_key service = "from-process".
Proof.
  split.
  - apply (proj1 (startup_requires_API_KEY None {[ "API_KEY" := "" ]})).
    right. vm_compute. reflexivity.
  - apply (proj2 (startup_requires_API_KEY
                    (Some {[ "API_KEY" := "from-file" ]})
                    {[ "API_KEY" := "from-process" ]}) "from-process").
    + vm_compute. reflexivity.
    + discriminate.
Defined.

(** ** Beyond the claims: the paths that succeed *)

Lemma truthy_Some_inv (x : option string) (s : string) :
  truthy x = Some s → x = Some s ∧ s ≠ "".
Proof.
  destruct x as [s'|]; simpl; [|discriminate].
  destruct (String.eqb_spec s' ""); [discriminate|].
  intros [= <-]. split; [reflexivity|assumption].
Qed.

Lemma estimate_cost_with_urls {Generation CostEstimate : Type}
    (c : Collaborators Generation CostEstimate)
    (video_file audio_file : UploadFile) (model v a : string) :
  uploads_yield c video_file audio_file v a →
  run (estimate_cost video_file audio_file model) c
    = (reported 500
         (generations_estimate_cost c (both_uploads video_file audio_file)
            [Video v; Audio a] model),
       both_uploads video_file audio_file
         ++ [ {| ev_call := GenerationsEstimateCost [Video v; Audio a] model;
                 ev_raised :=
                   raised_of (generations_estimate_cost c
                                (both_uploads video_file audio_file)
                                [Video v; Audio a] model) |} ]).
Proof.
  intros (rv & ra & Hv & Ha & Hvurl & Hvne & Haurl & Hane).
  unfold both_uploads, upload_event in *. unfold_handler.
  rewrite Hv. simpl. rewrite Ha. simpl.
  rewrite (truthy_Some _ v Hvurl Hvne), (truthy_Some _ a Haurl Hane). simpl.
  destruct (generations_estimate_cost c _ _ model) as [?|[?|?]]; reflexivity.
Qed.

Lemma upload_and_generate_with_urls {Generation CostEstimate : Type}
    (c : Collaborators Generation CostEstimate)
    (video_file audio_file : UploadFile) (model v a : string) :
  uploads_yield c video_file audio_file v a →
  run (upload_and_generate video_file audio_file model) c
    = (reported 500
         (generations_create c (both_uploads video_file audio_file)
            [Video v; Audio a] model),
       both_uploads video_file audio_file
         ++ [ {| ev_call := GenerationsCreate [Video v; Audio a] model;
                 ev_raised :=
                   raised_of (generations_create c
                                (both_uploads video_file audio_file)
                                [Video v; Audio a] model) |} ]).
Proof.
  intros (rv & ra & Hv & Ha & Hvurl & Hvne & Haurl & Hane).
  unfold both_uploads, upload_event in *. unfold_handler.
  rewrite Hv. simpl. rewrite Ha. simpl.
  rewrite (truthy_Some _ v Hvurl Hvne), (truthy_Some _ a Haurl Hane). simpl.
  destruct (generations_create c _ _ model) as [?|[?|?]]; reflexivity.
Qed.

Lemma healthy_uploads_yield :
  uploads_yield Doubles.healthy Doubles.clip Doubles.voice
    "https://res.example/VIDEO" "https://res.example/AUDIO".
Proof.
  eexists _, _. split; [reflexivity|]. split; [reflexivity|].
  split; [vm_compute; reflexivity|]. split; [discriminate|].
  split; [vm_compute; reflexivity|discriminate].
Defined.

(** X1: GET /generations makes exactly one collaborator call, the list
    operation, and a collection it returns, the empty one included, is the
    response as it is. *)
Theorem list_generations_forwards {Generation CostEstimate : Type}
    (c : Collaborators Generation CostEstimate) :
  calls list_generations c
    = [ {| ev_call := GenerationsList;
           ev_raised := raised_of (generations_list c []) |} ]
  ∧ ∀ generations : list Generation,
      generations_list c [] = Returns generations →
      response list_generations c = Returns generations.
Proof.
  split.
  - walk; reflexivity.
  - intros generations Hlist. walk. reflexivity.
Qed.

Lemma list_generations_forwards_witness :
  response list_generations EdgeDoubles.no_generations = Returns []
  ∧ response list_generations Doubles.healthy = Returns ["job:a"; "job:b"].
Proof.
  split.
  - apply (proj2 (list_generations_forwards EdgeDoubles.no_generations)).
    reflexivity.
  - apply (proj2 (list_generations_forwards Doubles.healthy)).
    reflexivity.
Defined.

(** X2: when the get operation returns a record for the identifier, GET
    /generations/{id} answers with that record and has made that one call
    and no other. *)
Theorem get_generation_returns_record {Generation CostEstimate : Type}
    (c : Collaborators Generation CostEstimate)
    (id : GenerationId) (generation : Generation) :
  generations_get c [] id = Returns generation →
  run (get_generation id) c
    = (Returns generation,
       [ {| ev_call := GenerationsGet id; ev_raised := None |} ]).
Proof. intros Hget. walk. reflexivity. Qed.

Lemma get_generation_returns_record_witness :
  run (get_generation "abc") Doubles.healthy
    = (Returns "job:abc",
       [ {| ev_call := GenerationsGet "abc"; ev_raised := None |} ]).
Proof.
  apply (get_generation_returns_record Doubles.healthy "abc" "job:abc").
  reflexivity.
Defined.

(** X3: when both uploads return a non-empty secure URL, POST
    /generations/estimate-cost makes a third and last call, the estimate
    operation, on [video descriptor of the video's secure URL; audio
    descriptor of the audio's secure URL] and the model it was given; a cost
    that call returns is the response. *)
Theorem estimate_cost_forwards_uploaded_urls {Generation CostEstimate : Type}
    (c : Collaborators Generation CostEstimate)
    (video_file audio_file : UploadFile) (model v a : string) :
  uploads_yield c video_file audio_file v a →
  let estimate :=
    generations_estimate_cost c (both_uploads video_file audio_file)
      [Video v; Audio a] model in
  calls (estimate_cost video_file audio_file model) c
    = both_uploads video_file audio_file
        ++ [ {| ev_call := GenerationsEstimateCost [Video v; Audio a] model;
                ev_raised := raised_of estimate |} ]
  ∧ ∀ cost : CostEstimate,
      estimate = Returns cost →
      response (estimate_cost video_file audio_file model) c = Returns cost.
Proof.
  intros Hyield estimate. subst estimate. unfold calls, response.
  rewrite (estimate_cost_with_urls c _ _ model v a Hyield). simpl. split.
  - reflexivity.
  - intros cost ->. reflexivity.
Qed.

Lemma estimate_cost_forwards_uploaded_urls_witness :
  response (estimate_cost Doubles.clip Doubles.voice "lipsync-2.1-pro")
           Doubles.healthy
    = Returns 42.
Proof.
  apply (proj2 (estimate_cost_forwards_uploaded_urls Doubles.healthy
                  Doubles.clip Doubles.voice "lipsync-2.1-pro"
                  "https://res.example/VIDEO" "https://res.example/AUDIO"
                  healthy_uploads_yield)).
  reflexivity.
Defined.

(** X4: when both uploads return a non-empty secure URL, POST
    /upload-and-generate makes a third and last call, the create operation,
    on the descriptors of the two secure URLs (not of anything the request
    carried) and the model it was given; a record that call returns is the
    response. *)
Theorem upload_and_generate_forwards_uploaded_urls {Generation CostEstimate : Type}
    (c : Collaborators Generation CostEstimate)
    (video_file audio_file : UploadFile) (model v a : string) :
  uploads_yield c video_file audio_file v a →
  let created :=
    generations_create c (both_uploads video_file audio_file)
      [Video v; Audio a] model in
  calls (upload_and_generate video_file audio_file model) c
    = both_uploads video_file audio_file
        ++ [ {| ev_call := GenerationsCreate [Video v; Audio a] model;
                ev_raised := raised_of created |} ]
  ∧ ∀ generation : Generation,
      created = Returns generation →
      response (upload_and_generate video_file audio_file model) c
        = Returns generation.
Proof.
  intros Hyield created. subst created. unfold calls, response.
  rewrite (upload_and_generate_with_urls c _ _ model v a Hyield). simpl. split.
  - reflexivity.
  - intros generation ->. reflexivity.
Qed.

Lemma upload_and_generate_forwards_uploaded_urls_witness :
  response (upload_and_generate Doubles.clip Doubles.voice "lipsync-2.1-pro")
           Doubles.healthy
    = Returns "job:lipsync-2.1-pro".
Proof.
  apply (proj2 (upload_and_generate_forwards_uploaded_urls Doubles.healthy
                  Doubles.clip Doubles.voice "lipsync-2.1-pro"
                  "https://res.example/VIDEO" "https://res.example/AUDIO"
                  healthy_uploads_yield)).
  reflexivity.
Defined.

(** ** Beyond the claims: the paths that fail *)

(** X5: a secure URL that is the empty string counts as no URL.  When both
    uploads return and one of the two results has an empty secure_url, both
    multipart handlers end with HTTPException(status_code=500) after the two
    uploads, without a call to the generation client. *)
Theorem empty_secure_url_counts_as_missing {Generation CostEstimate : Type}
    (c : Collaborators Generation CostEstimate)
    (video_file audio_file : UploadFile) (model : string)
    (rv ra : gmap string string) :
  uploader_upload c [] (file video_file) "video" "lipsync_uploads" = Returns rv →
  uploader_upload c [upload_event video_file None]
                  (file audio_file) "video" "lipsync_uploads" = Returns ra →
  rv !! "secure_url" = Some "" ∨ ra !! "secure_url" = Some "" →
  ((∃ detail, response (estimate_cost video_file audio_file model) c
                = Raises (Exc (HTTPException 500 detail)))
   ∧ calls (estimate_cost video_file audio_file model) c
       = both_uploads video_file audio_file)
  ∧ ((∃ detail, response (upload_and_generate video_file audio_file model) c
                  = Raises (Exc (HTTPException 500 detail)))
     ∧ calls (upload_and_generate video_file audio_file model) c
         = both_uploads video_file audio_file).
Proof.
  intros Hv Ha Hempty.
  assert (Hfalsy : truthy (rv !! "secure_url") = None
                   ∨ truthy (ra !! "secure_url") = None).
  { destruct Hempty as [Hempty|Hempty]; [left|right];
      apply truthy_falsy; right; exact Hempty. }
  unfold response, calls.
  rewrite (estimate_cost_without_url c _ _ model rv ra Hv Ha Hfalsy).
  rewrite (upload_and_generate_without_url c _ _ model rv ra Hv Ha Hfalsy).
  simpl. repeat split; eauto.
Qed.

Lemma empty_secure_url_counts_as_missing_witness :
  calls (estimate_cost Doubles.clip Doubles.voice "lipsync-2") EdgeDoubles.empty_url
    = both_uploads Doubles.clip Doubles.voice
  ∧ calls (upload_and_generate Doubles.clip Doubles.voice "lipsync-2")
          EdgeDoubles.empty_url
    = both_uploads Doubles.clip Doubles.voice.
Proof.
  assert (H := empty_secure_url_counts_as_missing EdgeDoubles.empty_url
                 Doubles.clip Doubles.voice "lipsync-2"
                 {[ "secure_url" := "" ]} {[ "secure_url" := "" ]}
                 eq_refl eq_refl (or_introl eq_refl)).
  split.
  - exact (proj2 (proj1 H)).
  - exact (proj2 (proj2 H)).
Defined.

(** X6: when the upload of the video file raises an exception, both
    multipart handlers end at once with HTTPException(status_code=500,
    detail=str(e)): the audio file is not uploaded and the generation client
    is not called. *)
Theorem video_upload_failure_ends_request {Generation CostEstimate : Type}
    (c : Collaborators Generation CostEstimate)
    (video_file audio_file : UploadFile) (model : string) (e : Exception) :
  uploader_upload c [] (file video_file) "video" "lipsync_uploads"
    = Raises (Exc e) →
  run (estimate_cost video_file audio_file model) c
    = (Raises (Exc (HTTPException 500 (str e))),
       [upload_event video_file (Some (Exc e))])
  ∧ run (upload_and_generate video_file audio_file model) c
    = (Raises (Exc (HTTPException 500 (str e))),
       [upload_event video_file (Some (Exc e))]).
Proof.
  intros Hv. unfold upload_event.
  split; unfold_handler; rewrite Hv; reflexivity.
Qed.

Lemma video_upload_failure_ends_request_witness :
  run (upload_and_generate Doubles.clip Doubles.voice "lipsync-2")
      Doubles.first_upload_fails
    = (Raises (Exc (HTTPException 500 "Invalid cloud_name")),
       [upload_event Doubles.clip
          (Some (Exc (PyException "Error" "Invalid cloud_name")))]).
Proof.
  apply (proj2 (video_upload_failure_ends_request Doubles.first_upload_fails
                  Doubles.clip Doubles.voice "lipsync-2"
                  (PyException "Error" "Invalid cloud_name") eq_refl)).
Defined.

(** X7: when the upload of the video file returns, whatever its result, and
    the upload of the audio file raises an exception, both multipart
    handlers end with HTTPException(status_code=500, detail=str(e)) after
    these two calls: the generation client is not called, and the video
    already uploaded is left where it is. *)
Theorem audio_upload_failure_ends_request {Generation CostEstimate : Type}
    (c : Collaborators Generation CostEstimate)
    (video_file audio_file : UploadFile) (model : string)
    (rv : gmap string string) (e : Exception) :
  uploader_upload c [] (file video_file) "video" "lipsync_uploads" = Returns rv →
  uploader_upload c [upload_event video_file None]
                  (file audio_file) "video" "lipsync_uploads" = Raises (Exc e) →
  run (estimate_cost video_file audio_file model) c
    = (Raises (Exc (HTTPException 500 (str e))),
       [upload_event video_file None; upload_event audio_file (Some (Exc e))])
  ∧ run (upload_and_generate video_file audio_file model) c
    = (Raises (Exc (HTTPException 500 (str e))),
       [upload_event video_file None; upload_event audio_file (Some (Exc e))]).
Proof.
  intros Hv Ha. unfold upload_event in *.
  split; unfold_handler; rewrite Hv; simpl; rewrite Ha; reflexivity.
Qed.

Lemma audio_upload_failure_ends_request_witness :
  run (estimate_cost Doubles.clip Doubles.voice "lipsync-2")
      Doubles.second_upload_fails
    = (Raises (Exc (HTTPException 500 "upload refused")),
       [upload_event Doubles.clip None;
        upload_event Doubles.voice
          (Some (Exc (PyException "Error" "upload refused")))]).
Proof.
  apply (proj1 (audio_upload_failure_ends_request Doubles.second_upload_fails
                  Doubles.clip Doubles.voice "lipsync-2"
                  {[ "secure_url" := "https://res.example/VIDEO";
                     "resource_type" := "video" ]}
                  (PyException "Error" "upload refused") eq_refl eq_refl)).
Defined.

(** ** Beyond the claims: what holds of every request *)

Ltac settle_end :=
  simpl;
  first
    [ reflexivity
    | solve [repeat constructor]
    | eexists; split; [left; reflexivity|reflexivity]
    | eexists; split; [right; left; reflexivity|reflexivity]
    | eexists; split; [right; right; left; reflexivity|reflexivity] ].

Ltac settle_frugal :=
  unfold frugal; simpl; split; [lia|];
  split;
    (let i := fresh "i" in
     let ev := fresh "ev" in
     let Hi := fresh "Hi" in
     let Hev := fresh "Hev" in
     intros i ev Hi Hev;
     repeat (destruct i as [|i]; simpl in Hi;
             [ injection Hi as <-;
               cbv [is_generation_client ev_call ev_raised] in Hev;
               first [reflexivity | congruence] | ]);
     rewrite lookup_nil in Hi; discriminate Hi).

(** X8: however the collaborators behave, a request ends in one of three
    ways: with a value, and then none of its collaborator calls raised; with
    an HTTPException whose status is 500 (404 for GET /generations/{id});
    or with a signal outside Exception that one of its calls raised.  No
    other exception leaves a handler. *)
Theorem handlers_end_within_their_status {Generation CostEstimate : Type}
    (c : Collaborators Generation CostEstimate) :
  (∀ request,
     ends_within 500 (response (create_generation request) c)
                     (calls (create_generation request) c))
  ∧ (∀ id,
       ends_within 404 (response (get_generation id) c)
                       (calls (get_generation id) c))
  ∧ ends_within 500 (response list_generations c) (calls list_generations c)
  ∧ (∀ video_file audio_file model,
       ends_within 500
         (response (estimate_cost video_file audio_file model) c)
         (calls (estimate_cost video_file audio_file model) c))
  ∧ (∀ video_file audio_file model,
       ends_within 500
         (response (upload_and_generate video_file audio_file model) c)
         (calls (upload_and_generate video_file audio_file model) c)).
Proof.
  split; [|split; [|split; [|split]]]; intros; walk; settle_end.
Qed.

(** X9: no handler retries or carries on after a failure.  A request makes
    at most three collaborator calls; a call that raised is the last call of
    the request; and a call to the generation client is the last call of the
    request, so there is at most one. *)
Theorem handlers_are_frugal {Generation CostEstimate : Type}
    (c : Collaborators Generation CostEstimate) :
  (∀ request, frugal (calls (create_generation request) c))
  ∧ (∀ id, frugal (calls (get_generation id) c))
  ∧ frugal (calls list_generations c)
  ∧ (∀ video_file audio_file model,
       frugal (calls (estimate_cost video_file audio_file model) c))
  ∧ (∀ video_file audio_file model,
       frugal (calls (upload_and_generate video_file audio_file model) c)).
Proof.
  split; [|split; [|split; [|split]]]; intros; walk; settle_frugal.
Qed.

(** X10: [except Exception] is all the handlers have.  When a collaborator
    call raises a BaseException that is not an Exception (a cancellation,
    say), every handler ends with that same signal and not with an
    HTTPException. *)
Theorem handlers_pass_signals {Generation CostEstimate : Type}
    (c : Collaborators Generation CostEstimate) :
  (∀ request, passes_signals (create_generation request) c)
  ∧ (∀ id, passes_signals (get_generation id) c)
  ∧ passes_signals list_generations c
  ∧ (∀ video_file audio_file model,
       passes_signals (estimate_cost video_file audio_file model) c)
  ∧ (∀ video_file audio_file model,
       passes_signals (upload_and_generate video_file audio_file model) c).
Proof.
  unfold passes_signals. split; [|split; [|split; [|split]]].
  - intros request. walk; settle_report.
  - intros id. walk; settle_report.
  - walk; settle_report.
  - intros video_file audio_file model. walk; settle_report.
  - intros video_file audio_file model. walk; settle_report.
Qed.

Lemma handlers_pass_signals_witness :
  response (upload_and_generate Doubles.clip Doubles.voice "lipsync-2")
           EdgeDoubles.cancelled
    = Raises (BaseExc "CancelledError").
Proof.
  apply (proj2 (proj2 (proj2 (proj2
           (handlers_pass_signals EdgeDoubles.cancelled))))
           Doubles.clip Doubles.voice "lipsync-2"
           {| ev_call := GenerationsCreate
                           [Video "https://res.example/VIDEO";
                            Audio "https://res.example/AUDIO"] "lipsync-2";
              ev_raised := Some (BaseExc "CancelledError") |}
           "CancelledError").
  - right. right. left. reflexivity.
  - reflexivity.
Defined.

Lemma handlers_are_frugal_witness :
  (3 = length (calls (estimate_cost Doubles.clip Doubles.voice "lipsync-2")
                     Doubles.healthy))%nat.
Proof.
  apply (proj2 (proj2 (proj1 (proj2 (proj2 (proj2
           (handlers_are_frugal Doubles.healthy))))
           Doubles.clip Doubles.voice "lipsync-2"))
           2%nat
           {| ev_call := GenerationsEstimateCost
                           [Video "https://res.example/VIDEO";
                            Audio "https://res.example/AUDIO"] "lipsync-2";
              ev_raised := None |}).
  - reflexivity.
  - reflexivity.
Defined.

Ltac no_client_call H :=
  let ev := fresh "ev" in
  let Hin := fresh "Hin" in
  let Hev := fresh "Hev" in
  apply List.Exists_exists in H as (ev & Hin & Hev); simpl in Hin;
  repeat (destruct Hin as [<-|Hin];
          [cbv [is_generation_client ev_call] in Hev; discriminate Hev|]);
  contradiction.

(** X11: in the two multipart handlers the generation client is called
    exactly when both uploads return a non-empty secure URL: in no other
    run of the handler is there a call to it. *)
Theorem generation_client_called_iff_urls {Generation CostEstimate : Type}
    (c : Collaborators Generation CostEstimate)
    (video_file audio_file : UploadFile) (model : string) :
  (Exists (λ ev, is_generation_client ev = true)
          (calls (estimate_cost video_file audio_file model) c)
   ↔ ∃ v a, uploads_yield c video_file audio_file v a)
  ∧ (Exists (λ ev, is_generation_client ev = true)
            (calls (upload_and_generate video_file audio_file model) c)
     ↔ ∃ v a, uploads_yield c video_file audio_file v a).
Proof.
  split; split.
  - unfold uploads_yield, upload_event. unfold_handler.
    destruct (uploader_upload c [] _ _ _) as [rv|[e|s]] eqn:Hv; simpl;
      [|intros H; no_client_call H..].
    destruct (uploader_upload c [_] _ _ _) as [ra|[e|s]] eqn:Ha; simpl;
      [|intros H; no_client_call H..].
    destruct (truthy (rv !! "secure_url")) as [v|] eqn:Hvurl; simpl;
      [|intros H; no_client_call H].
    destruct (truthy (ra !! "secure_url")) as [a|] eqn:Haurl; simpl;
      [|intros H; no_client_call H].
    intros _. apply truthy_Some_inv in Hvurl as [? ?].
    apply truthy_Some_inv in Haurl as [? ?].
    exists v, a, rv, ra. auto 10.
  - intros (v & a & Hyield). unfold calls.
    rewrite (estimate_cost_with_urls c _ _ model v a Hyield). simpl.
    do 2 apply Exists_cons_tl. apply Exists_cons_hd. reflexivity.
  - unfold uploads_yield, upload_event. unfold_handler.
    destruct (uploader_upload c [] _ _ _) as [rv|[e|s]] eqn:Hv; simpl;
      [|intros H; no_client_call H..].
    destruct (uploader_upload c [_] _ _ _) as [ra|[e|s]] eqn:Ha; simpl;
      [|intros H; no_client_call H..].
    destruct (truthy (rv !! "secure_url")) as [v|] eqn:Hvurl; simpl;
      [|intros H; no_client_call H].
    destruct (truthy (ra !! "secure_url")) as [a|] eqn:Haurl; simpl;
      [|intros H; no_client_call H].
    intros _. apply truthy_Some_inv in Hvurl as [? ?].
    apply truthy_Some_inv in Haurl as [? ?].
    exists v, a, rv, ra. auto 10.
  - intros (v & a & Hyield). unfold calls.
    rewrite (upload_and_generate_with_urls c _ _ model v a Hyield). simpl.
    do 2 apply Exists_cons_tl. apply Exists_cons_hd. reflexivity.
Qed.

Lemma generation_client_called_iff_urls_witness :
  Exists (λ ev, is_generation_client ev = true)
         (calls (estimate_cost Doubles.clip Doubles.voice "lipsync-2")
                Doubles.healthy).
Proof.
  apply (proj2 (proj1 (generation_client_called_iff_urls Doubles.healthy
                         Doubles.clip Doubles.voice "lipsync-2"))).
  exists "https://res.example/VIDEO", "https://res.example/AUDIO".
  exact healthy_uploads_yield.
Defined.

(** X12: once both uploads have returned a non-empty secure URL, POST
    /upload-and-generate goes on as POST /generations does on a request
    with these two URLs and the same model: the same response, success or
    failure, and after the two uploads the same calls. *)
Theorem upload_and_generate_is_uploads_then_create {Generation CostEstimate : Type}
    (c : Collaborators Generation CostEstimate)
    (video_file audio_file : UploadFile) (model v a : string) :
  uploads_yield c video_file audio_file v a →
  let request := {| video_url := v; audio_url := a; model := model |} in
  let c' := after (both_uploads video_file audio_file) c in
  run (upload_and_generate video_file audio_file model) c
    = (response (create_generation request) c',
       both_uploads video_file audio_file ++ calls (create_generation request) c').
Proof.
  intros Hyield request c'. subst request c'.
  rewrite (upload_and_generate_with_urls c _ _ model v a Hyield).
  unfold both_uploads. unfold_handler.
  destruct (generations_create c _ _ model) as [?|[?|?]]; reflexivity.
Qed.

Lemma upload_and_generate_is_uploads_then_create_witness :
  run (upload_and_generate Doubles.clip Doubles.voice "lipsync-2")
      Doubles.quota_exceeded
    = (Raises (Exc (HTTPException 500 "quota exceeded")),
       both_uploads Doubles.clip Doubles.voice
         ++ [ {| ev_call := GenerationsCreate
                              [Video "https://res.example/VIDEO";
                               Audio "https://res.example/AUDIO"] "lipsync-2";
                 ev_raised :=
                   Some (Exc (PyException "ApiError" "quota exceeded")) |} ]).
Proof.
  apply (upload_and_generate_is_uploads_then_create Doubles.quota_exceeded
           Doubles.clip Doubles.voice "lipsync-2"
           "https://res.example/VIDEO" "https://res.example/AUDIO").
  exact healthy_uploads_yield.
Defined.

(** X13: the upload phase is the same code in both multipart handlers.  On
    the same collaborators and files, whatever the models, the first two
    calls of POST /generations/estimate-cost and of POST
    /upload-and-generate are the same calls with the same outcomes, and the two requests
    make the same number of calls. *)
Theorem multipart_handlers_share_uploads {Generation CostEstimate : Type}
    (c : Collaborators Generation CostEstimate)
    (video_file audio_file : UploadFile) (model model' : string) :
  take 2 (calls (estimate_cost video_file audio_file model) c)
    = take 2 (calls (upload_and_generate video_file audio_file model') c)
  ∧ length (calls (estimate_cost video_file audio_file model) c)
    = length (calls (upload_and_generate video_file audio_file model') c).
Proof.
  split; walk; reflexivity.
Qed.

(** ** Beyond the claims: start-up *)

(** X14: the process environment wins over the .env file even when it
    holds nothing useful.  If the process defines API_KEY as the empty
    string, the module raises RuntimeError whatever key the .env file
    offers. *)
Theorem empty_process_API_KEY_shadows_dotenv
    (dotenv_file : option (gmap string string))
    (environ : gmap string string) :
  environ !! "API_KEY" = Some "" →
  Startup.startup dotenv_file environ
    = Raises (Exc (PyException "RuntimeError"
                               "API_KEY environment variable not set.")).
Proof.
  intros Hempty. unfold Startup.startup.
  rewrite (load_dotenv_lookup dotenv_file environ "API_KEY"), Hempty.
  reflexivity.
Qed.

Lemma empty_process_API_KEY_shadows_dotenv_witness :
  Startup.startup (Some {[ "API_KEY" := "sk-from-file" ]}) {[ "API_KEY" := "" ]}
    = Raises (Exc (PyException "RuntimeError"
                               "API_KEY environment variable not set.")).
Proof.
  apply (empty_process_API_KEY_shadows_dotenv
           (Some {[ "API_KEY" := "sk-from-file" ]}) {[ "API_KEY" := "" ]}).
  vm_compute. reflexivity.
Defined.

(** X15: start-up checks API_KEY and nothing else.  Whenever the module
    runs to its end, the three Cloudinary settings are what the process
    environment, or failing that the .env file, holds for them, None
    included: a missing Cloudinary credential does not stop start-up.  The
    secure flag is always on. *)
Theorem startup_takes_cloudinary_settings_unchecked
    (dotenv_file : option (gmap string string))
    (environ : gmap string string) (service : Startup.Service) :
  Startup.startup dotenv_file environ = Returns service →
  Startup.cloudinary_config service
    = {| Startup.cloud_name :=
           effective dotenv_file environ "CLOUDINARY_CLOUD_NAME";
         Startup.api_key :=
           effective dotenv_file environ "CLOUDINARY_API_KEY";
         Startup.api_secret :=
           effective dotenv_file environ "CLOUDINARY_API_SECRET";
         Startup.secure := true |}.
Proof.
  unfold Startup.startup, effective.
  rewrite <- !load_dotenv_lookup.
  destruct (truthy _); [|discriminate].
  intros [= <-]. reflexivity.
Qed.

Lemma startup_takes_cloudinary_settings_unchecked_witness :
  ∃ service,
    Startup.startup None {[ "API_KEY" := "sk-test" ]} = Returns service
    ∧ Startup.cloudinary_config service
      = {| Startup.cloud_name := None;
           Startup.api_key := None;
           Startup.api_secret := None;
           Startup.secure := true |}.
Proof.
  eexists. split.
  - vm_compute. reflexivity.
  - etransitivity.
    + apply (startup_takes_cloudinary_settings_unchecked
               None {[ "API_KEY" := "sk-test" ]}).
      vm_compute. reflexivity.
    + vm_compute. reflexivity.
Defined.
